(** * extract_pdf.py: a verified model of the PDF text-extraction script

    The script spawns the macOS [textutil] converter on one fixed PDF,
    prints the converted text when the tool exits with status zero, prints
    [Error: <stderr>] when it exits with another status, and prints
    [Failed to extract PDF: <e>] when an exception is raised in between.

    The development has three layers:
    - [PyRuntime]: the part of the Python runtime the script touches
      (exception classes and [except] matching, [print] on a standard
      output that may refuse a write or be absent, [subprocess.run], the
      interpreter's exit status with its final flush), as a
      state-and-exception monad over an explicit external world;
    - [ExtractPdf]: the script itself, statement for statement, and next to
      it the command runner of the design document ([runExtraction] and
      [report]);
    - the theorems relating the two and describing what reaches the
      standard output. *)

From Stdlib Require Import String Ascii List ZArith Bool Lia.
From ExtLib Require Import Structures.Monad Structures.MonadExc.
Import ListNotations.
Import MonadNotation.

Local Open Scope string_scope.
Local Open Scope Z_scope.
Local Open Scope monad_scope.

(* ===================================================================== *)
(** ** The Python runtime seen by the script *)
(* ===================================================================== *)

Module PyRuntime.

(** *** Exception classes

    The built-in classes that [subprocess.run] and [print] can raise from,
    with the single-inheritance chain Python gives them.
    [KeyboardInterrupt] derives from [BaseException] directly, not from
    [Exception]. *)

Inductive pyclass : Type :=
  | BaseException
  | Exception
  | KeyboardInterrupt
  | OSError
  | FileNotFoundError
  | PermissionError
  | SubprocessError
  | ValueError
  | UnicodeError
  | UnicodeDecodeError
  | UnicodeEncodeError
  | MemoryError.

Definition pyclass_eqb (c d : pyclass) : bool :=
  match c, d with
  | BaseException, BaseException
  | Exception, Exception
  | KeyboardInterrupt, KeyboardInterrupt
  | OSError, OSError
  | FileNotFoundError, FileNotFoundError
  | PermissionError, PermissionError
  | SubprocessError, SubprocessError
  | ValueError, ValueError
  | UnicodeError, UnicodeError
  | UnicodeDecodeError, UnicodeDecodeError
  | UnicodeEncodeError, UnicodeEncodeError
  | MemoryError, MemoryError => true
  | _, _ => false
  end.

(** [__base__] of each class; [BaseException] is the root of the chain. *)
Definition base (c : pyclass) : option pyclass :=
  match c with
  | BaseException => None
  | Exception => Some BaseException
  | KeyboardInterrupt => Some BaseException
  | OSError => Some Exception
  | FileNotFoundError => Some OSError
  | PermissionError => Some OSError
  | SubprocessError => Some Exception
  | ValueError => Some Exception
  | UnicodeError => Some ValueError
  | UnicodeDecodeError => Some UnicodeError
  | UnicodeEncodeError => Some UnicodeError
  | MemoryError => Some Exception
  end.

(** The method resolution order: the class followed by its ancestors.  The
    deepest chain has five classes, which bounds the climb. *)
Fixpoint mro_from (fuel : nat) (c : pyclass) : list pyclass :=
  match fuel with
  | O => [c]
  | S fuel' =>
      match base c with
      | None => [c]
      | Some b => c :: mro_from fuel' b
      end
  end.

Definition mro (c : pyclass) : list pyclass := mro_from 5 c.

Definition issubclass (c d : pyclass) : bool := existsb (pyclass_eqb d) (mro c).

(** An exception object, reduced to what the script can observe of it: its
    class (for the [except] clause) and the text [str(e)] that an f-string
    interpolates. *)
Record exception : Type := mkException {
  exc_class : pyclass;
  exc_str : string
}.

Definition str (e : exception) : string := exc_str e.

Definition isinstance (e : exception) (c : pyclass) : bool :=
  issubclass (exc_class e) c.

(** *** The external world and the process state *)

(** The arguments of one [subprocess.run] call: the argument vector and the
    two keyword arguments the script passes. *)
Record Invocation : Type := mkInvocation {
  args : list string;
  capture_output : bool;
  text : bool
}.

(** [subprocess.CompletedProcess], with the attributes the script reads.
    Under [capture_output=True, text=True] both streams are [str]. *)
Record CompletedProcess : Type := mkCompletedProcess {
  returncode : Z;
  stdout : string;
  stderr : string
}.

(** What a [subprocess.run] call does: it returns the completed process, or
    it raises.  The second case covers a child that could not be started,
    an interrupt while it is awaited, and a child that ran but whose
    output could not be collected or decoded. *)
Inductive SpawnResult : Type :=
  | Completed (result : CompletedProcess)
  | Raises (e : exception).

(** What one [write] call on a text stream does: it takes the whole text,
    or it raises after taking [taken] (nothing, when the text cannot be
    encoded). *)
Inductive WriteResult : Type :=
  | Accepted
  | Refused (taken : string) (e : exception).

(** The object [sys.stdout]: how it answers a [write] of some text once it
    has taken [written], and whether the flush at interpreter exit of
    what it has taken succeeds. *)
Record TextStream : Type := mkTextStream {
  write : string -> string -> WriteResult;
  flush : string -> bool
}.

(** Everything outside the script: its own command line, its environment
    variables, the operating system's answer to a spawn request made under
    an environment (the child inherits it, and a bare program name is
    looked up through its [PATH]), and the standard output the interpreter
    sets up under an environment (its encoding comes from
    [PYTHONIOENCODING] or the locale); [None] is a process started with
    its standard output closed, for which [sys.stdout] is [None]. *)
Record World : Type := mkWorld {
  sys_argv : list string;
  os_environ : list (string * string);
  os_spawn : list (string * string) -> Invocation -> SpawnResult;
  os_stdout : list (string * string) -> option TextStream
}.

Definition stdout_stream (w : World) : option TextStream :=
  os_stdout w (os_environ w).

(** [os.environ.get(name)]. *)
Definition getenv (name : string) (environ : list (string * string))
    : option string :=
  match find (fun kv => String.eqb (fst kv) name) environ with
  | Some kv => Some (snd kv)
  | None => None
  end.

(** What the script's process does to its surroundings: the characters
    [sys.stdout] has taken from it, and the children it asked for. *)
Record Process : Type := mkProcess {
  sys_stdout : string;
  spawned : list Invocation
}.

Definition initial : Process := {| sys_stdout := ""; spawned := [] |}.

(** *** The monad of Python statements

    A statement runs in a world, updates the process state, and either
    completes with a value or raises.  Effects performed before a raise
    stay performed. *)

Inductive Completion (A : Type) : Type :=
  | Normal (a : A)
  | Raise (e : exception).

Arguments Normal {A} a.
Arguments Raise {A} e.

Definition Py (A : Type) : Type := World -> Process -> Completion A * Process.

Definition py_ret {A} (a : A) : Py A := fun _ p => (Normal a, p).

Definition py_bind {A B} (c : Py A) (k : A -> Py B) : Py B :=
  fun w p =>
    match c w p with
    | (Normal a, p') => k a w p'
    | (Raise e, p') => (Raise e, p')
    end.

Definition py_raise {A} (e : exception) : Py A := fun _ p => (Raise e, p).

Definition py_catch {A} (c : Py A) (h : exception -> Py A) : Py A :=
  fun w p =>
    match c w p with
    | (Normal a, p') => (Normal a, p')
    | (Raise e, p') => h e w p'
    end.

#[global] Instance Monad_Py : Monad Py :=
  {| ret := @py_ret; bind := @py_bind |}.

#[global] Instance MonadExc_Py : MonadExc exception Py :=
  {| raise := @py_raise; catch := @py_catch |}.

(** [try: body / except cls as e: handler e].  An exception that is not an
    instance of [cls] passes through the statement. *)
Definition try_except {A} (body : Py A) (cls : pyclass)
    (handler : exception -> Py A) : Py A :=
  catch body (fun e => if isinstance e cls then handler e else raise e).

(** *** Built-ins *)

(** Reading [sys.argv] and [os.environ]. *)
Definition sys_argv_get : Py (list string) := fun w p => (Normal (sys_argv w), p).

Definition os_environ_get : Py (list (string * string)) :=
  fun w p => (Normal (os_environ w), p).

Definition newline : string := String (ascii_of_nat 10) EmptyString.

(** [sys.stdout.write(s)] on the stream [f]: the stream takes the text, or
    raises after taking part of it. *)
Definition stream_write (f : TextStream) (s : string) : Py unit :=
  fun _ p =>
    match write f (sys_stdout p) s with
    | Accepted =>
        (Normal tt, {| sys_stdout := sys_stdout p ++ s; spawned := spawned p |})
    | Refused taken e =>
        (Raise e, {| sys_stdout := sys_stdout p ++ taken; spawned := spawned p |})
    end.

(** [print(s)] with the default [sep], [end] and [file]: nothing when
    [sys.stdout] is [None]; otherwise one write of [s] and one write of
    ['\n'], either of which may raise. *)
Definition print (s : string) : Py unit :=
  fun w p =>
    match stdout_stream w with
    | None => (Normal tt, p)
    | Some f => (stream_write f s ;; stream_write f newline) w p
    end.

(** [subprocess.run(args, capture_output=..., text=...)]: hands the request
    to the operating system under the process's environment, waits, and
    returns the completed process or raises. *)
Definition subprocess_run (argv : list string) (capture text_mode : bool)
    : Py CompletedProcess :=
  fun w p =>
    let inv := {| args := argv; capture_output := capture; text := text_mode |} in
    let p' := {| sys_stdout := sys_stdout p; spawned := spawned p ++ [inv] |} in
    match os_spawn w (os_environ w) inv with
    | Completed result => (Normal result, p')
    | Raises e => (Raise e, p')
    end.

(** *** The standard output as the script needs it *)

(** The stream takes the line [line] and its newline once it has taken
    [written]. *)
Definition accepts (w : World) (written line : string) : bool :=
  match stdout_stream w with
  | None => false
  | Some f =>
      match write f written line, write f (written ++ line) newline with
      | Accepted, Accepted => true
      | _, _ => false
      end
  end.

(** The flush at interpreter exit of what the stream has taken succeeds;
    there is nothing to flush when [sys.stdout] is [None]. *)
Definition flushes (w : World) (written : string) : bool :=
  match stdout_stream w with
  | None => true
  | Some f => flush f written
  end.

(** A standard output that takes every write and flushes. *)
Definition reliable (w : World) : Prop :=
  exists f, stdout_stream w = Some f
            /\ (forall written s, write f written s = Accepted)
            /\ (forall written, flush f written = true).

(** *** The interpreter around the script *)

Inductive ProcessStatus : Type :=
  | Exited (code : Z)
  | KilledBySignal (signal : Z).

(** How [python3 script.py] ends.  A [KeyboardInterrupt] that leaves the
    module body ends the process through SIGINT (signal 2).  Otherwise
    the standard output is flushed: when that fails the status is 120;
    when it succeeds the status is 0 if the module body completed and 1,
    after a traceback, if an exception left it. *)
Definition interpreter_status {A} (w : World) (r : Completion A * Process)
    : ProcessStatus :=
  match fst r with
  | Raise e =>
      if pyclass_eqb (exc_class e) KeyboardInterrupt then KilledBySignal 2
      else if flushes w (sys_stdout (snd r)) then Exited 1
      else Exited 120
  | Normal _ =>
      if flushes w (sys_stdout (snd r)) then Exited 0 else Exited 120
  end.

(** Running a program as a fresh process in world [w]. *)
Definition run {A} (prog : Py A) (w : World) : Completion A * Process :=
  prog w initial.

End PyRuntime.

(* ===================================================================== *)
(** ** The script *)
(* ===================================================================== *)

Module ExtractPdf.
Import PyRuntime.

(** The module body of [extract_pdf.py], lines 5 to 14.  The f-strings are
    written as the concatenation they evaluate to.  Both prints of lines
    10 and 12 sit inside the [try]; the print of line 14 is the handler's
    and sits inside nothing. *)
Definition script : Py unit :=
  try_except
    (result <- subprocess_run
                 ["textutil"; "-convert"; "txt"; "-stdout";
                  "/Users/sachinbuluswar/Desktop/API Reference - OpenAI API.pdf"]
                 true true ;;
     if returncode result =? 0 then
       print (stdout result)
     else
       print ("Error: " ++ stderr result))
    Exception
    (fun e => print ("Failed to extract PDF: " ++ str e)).

(** The one request the script sends to the operating system. *)
Definition invocation : Invocation :=
  {| args := ["textutil"; "-convert"; "txt"; "-stdout";
              "/Users/sachinbuluswar/Desktop/API Reference - OpenAI API.pdf"];
     capture_output := true;
     text := true |}.

(** The answer to that request in world [w]. *)
Definition spawn_attempt (w : World) : SpawnResult :=
  os_spawn w (os_environ w) invocation.

(** The handler of line 14, and the line the [try] body prints for a
    completed process (lines 9 to 12). *)
Definition on_error (e : exception) : Py unit :=
  print ("Failed to extract PDF: " ++ str e).

Definition line_of (result : CompletedProcess) : string :=
  if returncode result =? 0 then stdout result else "Error: " ++ stderr result.

(** *** The command runner of the design document

    The design document describes the script as an operation
    [runExtraction] that yields one of three outcomes, followed by a
    printing step.  These definitions follow its wording (section 4.1,
    steps 1 to 4 and the output side effect) over the same runtime; the
    theorems below compare them with [script]. *)

Inductive Outcome : Type :=
  | Success (captured : string)
  | ToolFailure (message : string)
  | LaunchFailure (message : string).

Inductive OutcomeKind : Type :=
  | IsSuccess
  | IsToolFailure
  | IsLaunchFailure.

Definition kind (o : Outcome) : OutcomeKind :=
  match o with
  | Success _ => IsSuccess
  | ToolFailure _ => IsToolFailure
  | LaunchFailure _ => IsLaunchFailure
  end.

(** The outcome the design document assigns to an answer of the spawn,
    read as a table: status zero, another status, an error raised.  An
    error is an instance of [Exception]; an answer that raises anything
    else has no outcome. *)
Definition outcome_of (answer : SpawnResult) : option Outcome :=
  match answer with
  | Completed result =>
      if returncode result =? 0
      then Some (Success (stdout result))
      else Some (ToolFailure (stderr result))
  | Raises e =>
      if isinstance e Exception
      then Some (LaunchFailure (str e))
      else None
  end.

(** [runExtraction]: spawn the fixed command; a completed child with
    status zero is a [Success] with the captured standard output, one with
    another status a [ToolFailure] with the captured standard error; a
    spawn that raises an error is a [LaunchFailure] with the error's
    description. *)
Definition runExtraction : Py Outcome :=
  try_except
    (result <- subprocess_run (args invocation) true true ;;
     if returncode result =? 0 then
       ret (Success (stdout result))
     else
       ret (ToolFailure (stderr result)))
    Exception
    (fun e => ret (LaunchFailure (str e))).

(** The message each outcome is surfaced as. *)
Definition message_of (o : Outcome) : string :=
  match o with
  | Success captured => captured
  | ToolFailure message => "Error: " ++ message
  | LaunchFailure message => "Failed to extract PDF: " ++ message
  end.



(** The process state once the spawn request has been made, and once a
    line has been printed. *)
Definition requested (p : Process) : Process :=
  {| sys_stdout := sys_stdout p; spawned := spawned p ++ [invocation] |}.

Definition printed (line : string) (p : Process) : Process :=
  {| sys_stdout := sys_stdout p ++ line ++ newline; spawned := spawned p |}.

(** The classification of a run in world [w], when it has one. *)
Definition classification (w : World) : option OutcomeKind :=
  match fst (run runExtraction w) with
  | Normal o => Some (kind o)
  | Raise _ => None
  end.

(** Starting the script with another command line and other environment
    variables on the same machine. *)
Definition with_argv_environ (w : World) (argv : list string)
    (environ : list (string * string)) : World :=
  {| sys_argv := argv; os_environ := environ;
     os_spawn := os_spawn w; os_stdout := os_stdout w |}.

End ExtractPdf.

(* ===================================================================== *)
(** ** Concrete worlds *)
(* ===================================================================== *)

Module Scenarios.
Import PyRuntime ExtractPdf.

(** *** Standard outputs *)

(** A terminal with a UTF-8 encoding: takes everything. *)
Definition utf8_terminal : TextStream :=
  {| write := fun _ _ => Accepted; flush := fun _ => true |}.

(** Text as UTF-8 bytes; a byte below 128 is an ASCII character. *)
Definition is_ascii (s : string) : bool :=
  forallb (fun c => Nat.ltb (nat_of_ascii c) 128) (list_ascii_of_string s).

(** The text [caf] followed by U+00E9, in UTF-8. *)
Definition cafe_text : string :=
  "caf" ++ String (ascii_of_nat 195) (String (ascii_of_nat 169) "").

(** What the ASCII codec raises on [cafe_text]. *)
Definition encode_error : exception :=
  {| exc_class := UnicodeEncodeError;
     exc_str := "'ascii' codec can't encode character '\xe9' in position 3: ordinal not in range(128)" |}.

(** A standard output with the ASCII encoding, as under
    [PYTHONIOENCODING=ascii]: a text with a character outside ASCII is
    refused whole. *)
Definition ascii_terminal : TextStream :=
  {| write := fun _ s => if is_ascii s then Accepted else Refused "" encode_error;
     flush := fun _ => true |}.

(** The standard output a machine gives a process from its environment. *)
Definition stdout_by_environment (environ : list (string * string))
    : option TextStream :=
  match getenv "PYTHONIOENCODING" environ with
  | Some encoding =>
      if String.eqb encoding "ascii" then Some ascii_terminal
      else Some utf8_terminal
  | None => Some utf8_terminal
  end.

(** A full device behind the usual buffer, as with [> /dev/full]: every
    write is taken, the flush at exit fails. *)
Definition full_device_buffered : TextStream :=
  {| write := fun _ _ => Accepted; flush := fun _ => false |}.

(** What a write to a full device raises. *)
Definition no_space : exception :=
  {| exc_class := OSError; exc_str := "[Errno 28] No space left on device" |}.

(** A full device without buffer, as with [python3 -u ... > /dev/full]:
    every write raises. *)
Definition full_device_unbuffered : TextStream :=
  {| write := fun _ _ => Refused "" no_space; flush := fun _ => true |}.

(** *** Machines *)

(** A machine on which [textutil] converts the document to [Hello]. *)
Definition converted : CompletedProcess :=
  {| returncode := 0; stdout := "Hello"; stderr := "" |}.

Definition world_converted : World :=
  {| sys_argv := ["extract_pdf.py"];
     os_environ := [("PATH", "/usr/bin:/bin")];
     os_spawn := fun _ _ => Completed converted;
     os_stdout := fun _ => Some utf8_terminal |}.

(** The same machine, with the script started with extra arguments and
    other environment variables. *)
Definition world_converted_args : World :=
  {| sys_argv := ["extract_pdf.py"; "--verbose"; "other.pdf"];
     os_environ := [("PATH", "/usr/bin:/bin"); ("LANG", "C")];
     os_spawn := fun _ _ => Completed converted;
     os_stdout := fun _ => Some utf8_terminal |}.

(** A machine on which [textutil] rejects the document. *)
Definition rejected : CompletedProcess :=
  {| returncode := 1; stdout := ""; stderr := "bad format" |}.

Definition world_bad_format : World :=
  {| sys_argv := ["extract_pdf.py"];
     os_environ := [];
     os_spawn := fun _ _ => Completed rejected;
     os_stdout := fun _ => Some utf8_terminal |}.

(** A machine without [textutil]: the spawn raises [FileNotFoundError]. *)
Definition not_found : exception :=
  {| exc_class := FileNotFoundError;
     exc_str := "[Errno 2] No such file or directory: 'textutil'" |}.

Definition world_no_textutil : World :=
  {| sys_argv := ["extract_pdf.py"];
     os_environ := [];
     os_spawn := fun _ _ => Raises not_found;
     os_stdout := fun _ => Some utf8_terminal |}.

(** A machine that has [textutil] in [/usr/bin] only: the bare name is
    found when [PATH] is set, whatever it holds here, and not otherwise. *)
Definition world_path_lookup : World :=
  {| sys_argv := ["extract_pdf.py"];
     os_environ := [("PATH", "/usr/bin:/bin")];
     os_spawn := fun environ _ =>
                   match getenv "PATH" environ with
                   | Some _ => Completed converted
                   | None => Raises not_found
                   end;
     os_stdout := fun _ => Some utf8_terminal |}.

(** A machine that runs out of memory while the output is collected:
    [MemoryError()] carries no message, so [str(e)] is empty. *)
Definition out_of_memory : exception :=
  {| exc_class := MemoryError; exc_str := "" |}.

Definition world_out_of_memory : World :=
  {| sys_argv := ["extract_pdf.py"];
     os_environ := [];
     os_spawn := fun _ _ => Raises out_of_memory;
     os_stdout := fun _ => Some utf8_terminal |}.

(** The user interrupts the script while it waits for the child. *)
Definition interrupted : exception :=
  {| exc_class := KeyboardInterrupt; exc_str := "" |}.

Definition world_interrupted : World :=
  {| sys_argv := ["extract_pdf.py"];
     os_environ := [];
     os_spawn := fun _ _ => Raises interrupted;
     os_stdout := fun _ => Some utf8_terminal |}.

(** A machine on which [textutil] succeeds and the document's text is
    itself [Error: bad format]. *)
Definition lookalike : CompletedProcess :=
  {| returncode := 0; stdout := "Error: bad format"; stderr := "" |}.

Definition world_lookalike : World :=
  {| sys_argv := ["extract_pdf.py"];
     os_environ := [];
     os_spawn := fun _ _ => Completed lookalike;
     os_stdout := fun _ => Some utf8_terminal |}.

(** A machine on which [textutil] wrote part of the text before rejecting
    the document with status 2. *)
Definition rejected_midway : CompletedProcess :=
  {| returncode := 2; stdout := "Chapter 1"; stderr := "bad format" |}.

Definition world_rejected_midway : World :=
  {| sys_argv := ["extract_pdf.py"];
     os_environ := [];
     os_spawn := fun _ _ => Completed rejected_midway;
     os_stdout := fun _ => Some utf8_terminal |}.

(** A machine on which [textutil] converts the document and warns on its
    standard error. *)
Definition converted_with_warning : CompletedProcess :=
  {| returncode := 0; stdout := "Hello"; stderr := "warning: font missing" |}.

Definition world_converted_with_warning : World :=
  {| sys_argv := ["extract_pdf.py"];
     os_environ := [];
     os_spawn := fun _ _ => Completed converted_with_warning;
     os_stdout := fun _ => Some utf8_terminal |}.

(** A spawn that raises a plain [OSError] with the text of [not_found]. *)
Definition plain_oserror : exception :=
  {| exc_class := OSError;
     exc_str := "[Errno 2] No such file or directory: 'textutil'" |}.

Definition world_plain_oserror : World :=
  {| sys_argv := ["extract_pdf.py"];
     os_environ := [];
     os_spawn := fun _ _ => Raises plain_oserror;
     os_stdout := fun _ => Some utf8_terminal |}.

(** A machine on which [textutil] converts the document to [cafe_text],
    with the standard output set up from the environment. *)
Definition cafe : CompletedProcess :=
  {| returncode := 0; stdout := cafe_text; stderr := "" |}.

Definition world_cafe : World :=
  {| sys_argv := ["extract_pdf.py"];
     os_environ := [];
     os_spawn := fun _ _ => Completed cafe;
     os_stdout := stdout_by_environment |}.

(** The same machine and command line, started under
    [PYTHONIOENCODING=ascii]. *)
Definition world_cafe_ascii : World :=
  with_argv_environ world_cafe ["extract_pdf.py"]
    [("PYTHONIOENCODING", "ascii")].

(** [textutil] converts the document; the standard output is a full
    device, behind the usual buffer and without it. *)
Definition world_full_buffered : World :=
  {| sys_argv := ["extract_pdf.py"];
     os_environ := [];
     os_spawn := fun _ _ => Completed converted;
     os_stdout := fun _ => Some full_device_buffered |}.

Definition world_full_unbuffered : World :=
  {| sys_argv := ["extract_pdf.py"];
     os_environ := [];
     os_spawn := fun _ _ => Completed converted;
     os_stdout := fun _ => Some full_device_unbuffered |}.

(** No [textutil], and the standard output is a full device without
    buffer. *)
Definition world_no_textutil_full : World :=
  {| sys_argv := ["extract_pdf.py"];
     os_environ := [];
     os_spawn := fun _ _ => Raises not_found;
     os_stdout := fun _ => Some full_device_unbuffered |}.

(** [textutil] converts the document; the script was started with its
    standard output closed. *)
Definition world_stdout_closed : World :=
  {| sys_argv := ["extract_pdf.py"];
     os_environ := [];
     os_spawn := fun _ _ => Completed converted;
     os_stdout := fun _ => None |}.

End Scenarios.

(** Unfolding a program of the [Py] monad down to the spawn answer, with
    [print] left folded. *)
Ltac py_unfold :=
  unfold PyRuntime.run, PyRuntime.try_except, PyRuntime.subprocess_run;
  cbn [catch bind ret raise PyRuntime.MonadExc_Py PyRuntime.Monad_Py];
  unfold PyRuntime.py_catch, PyRuntime.py_bind, PyRuntime.py_ret,
         PyRuntime.py_raise.

(* ===================================================================== *)
(** ** Facts about strings *)
(* ===================================================================== *)

Section StringFacts.

Lemma append_nil_r (s : string) : s ++ "" = s.
Proof. induction s as [|c s IH]; simpl; [reflexivity | now rewrite IH]. Qed.

Lemma append_assoc (s t u : string) : (s ++ t) ++ u = s ++ (t ++ u).
Proof. induction s as [|c s IH]; simpl; [reflexivity | now rewrite IH]. Qed.

Lemma length_append (s t : string) :
  String.length (s ++ t) = (String.length s + String.length t)%nat.
Proof. induction s as [|c s IH]; simpl; [reflexivity | now rewrite IH]. Qed.

Lemma append_cancel_l (s t u : string) : s ++ t = s ++ u -> t = u.
Proof.
  induction s as [|c s IH]; simpl; intros H; [exact H |].
  injection H as H. exact (IH H).
Qed.

Lemma prefix_append (s t : string) : String.prefix s (s ++ t) = true.
Proof.
  induction s as [|c s IH]; simpl.
  - now destruct t.
  - destruct (ascii_dec c c) as [_ | N]; [exact IH | now elim N].
Qed.

Lemma append_one_neq (s t : string) : t <> "" -> s ++ t <> s.
Proof.
  intros Ht H. apply (f_equal String.length) in H.
  rewrite length_append in H.
  destruct t; [now apply Ht | simpl in H; lia].
Qed.

End StringFacts.

(* ===================================================================== *)
(** ** Facts about the runtime *)
(* ===================================================================== *)

Import PyRuntime.

Section ClassFacts.

Lemma pyclass_eqb_eq (c d : pyclass) : pyclass_eqb c d = true <-> c = d.
Proof. split; [destruct c, d; simpl; congruence | intros ->; now destruct d]. Qed.

Lemma issubclass_refl (c : pyclass) : issubclass c c = true.
Proof. now destruct c. Qed.

Lemma issubclass_BaseException (c : pyclass) : issubclass c BaseException = true.
Proof. now destruct c. Qed.

Lemma issubclass_trans (c d e : pyclass) :
  issubclass c d = true -> issubclass d e = true -> issubclass c e = true.
Proof. destruct c, d; try discriminate; destruct e; intros H1 H2; solve [reflexivity | discriminate]. Qed.

(** [except Exception] lets through exactly the exceptions whose class sits
    outside the [Exception] subtree: here [KeyboardInterrupt] and a bare
    [BaseException]. *)
Lemma isinstance_Exception (e : exception) :
  isinstance e Exception = false <->
  exc_class e = KeyboardInterrupt \/ exc_class e = BaseException.
Proof.
  unfold isinstance. split.
  - destruct (exc_class e); simpl; intros H; try discriminate; auto.
  - now intros [-> | ->].
Qed.

Lemma isinstance_Exception_not_interrupt (e : exception) :
  isinstance e Exception = true ->
  pyclass_eqb (exc_class e) KeyboardInterrupt = false.
Proof. unfold isinstance. now destruct (exc_class e). Qed.

End ClassFacts.

Section MonadFacts.

Context {A B C : Type}.

Lemma bind_ret_l (a : A) (k : A -> Py B) w p : (x <- ret a ;; k x) w p = k a w p.
Proof. reflexivity. Qed.

Lemma bind_ret_r (c : Py A) w p : (x <- c ;; ret x) w p = c w p.
Proof. simpl. unfold py_bind. now destruct (c w p) as [[a | e] p']. Qed.

Lemma bind_assoc (c : Py A) (k : A -> Py B) (h : B -> Py C) w p :
  (y <- (x <- c ;; k x) ;; h y) w p = (x <- c ;; y <- k x ;; h y) w p.
Proof. simpl. unfold py_bind. now destruct (c w p) as [[a | e] p']. Qed.

Lemma try_except_normal (body : Py A) cls handler w p a p' :
  body w p = (Normal a, p') -> try_except body cls handler w p = (Normal a, p').
Proof. intros H. unfold try_except. simpl. unfold py_catch. now rewrite H. Qed.


Lemma try_except_passes (body : Py A) cls handler w p e p' :
  body w p = (Raise e, p') -> isinstance e cls = false ->
  try_except body cls handler w p = (Raise e, p').
Proof. intros H I. unfold try_except. simpl. unfold py_catch. now rewrite H, I. Qed.

End MonadFacts.

Section BuiltinFacts.

Lemma newline_length : String.length newline = 1%nat.
Proof. reflexivity. Qed.

(** A print reads the world through [sys.stdout] only. *)
Lemma print_stream_only (s : string) (w1 w2 : World) (p : Process) :
  stdout_stream w1 = stdout_stream w2 -> print s w1 p = print s w2 p.
Proof. intros H. unfold print. now rewrite H. Qed.

(** With [sys.stdout] absent, a print does nothing. *)
Lemma print_closed (s : string) w p :
  stdout_stream w = None -> print s w p = (Normal tt, p).
Proof. intros H. unfold print. now rewrite H. Qed.

(** A line the stream accepts is appended with its newline. *)
Lemma print_accepted (s : string) w p :
  accepts w (sys_stdout p) s = true ->
  print s w p =
  (Normal tt, {| sys_stdout := sys_stdout p ++ s ++ newline; spawned := spawned p |}).
Proof.
  unfold accepts, print. destruct (stdout_stream w) as [f |]; [| discriminate].
  simpl. unfold py_bind, stream_write.
  destruct (write f (sys_stdout p) s); [| discriminate]. simpl.
  destruct (write f (sys_stdout p ++ s) newline); [| discriminate].
  intros _. now rewrite append_assoc.
Qed.

(** A line whose text the stream refuses leaves what the stream took
    before raising, and raises. *)
Lemma print_refused (s : string) w p f taken e :
  stdout_stream w = Some f ->
  write f (sys_stdout p) s = Refused taken e ->
  print s w p =
  (Raise e, {| sys_stdout := sys_stdout p ++ taken; spawned := spawned p |}).
Proof.
  intros Hf Hw. unfold print. rewrite Hf. simpl. unfold py_bind, stream_write.
  now rewrite Hw.
Qed.

(** A print spawns nothing. *)
Lemma print_spawned (s : string) w p : spawned (snd (print s w p)) = spawned p.
Proof.
  unfold print. destruct (stdout_stream w) as [f |]; [| reflexivity].
  simpl. unfold py_bind, stream_write.
  destruct (write f (sys_stdout p) s); simpl; [| reflexivity].
  now destruct (write f (sys_stdout p ++ s) newline).
Qed.

Lemma reliable_accepts w written line : reliable w -> accepts w written line = true.
Proof.
  intros [f [Hf [Hw _]]]. unfold accepts. now rewrite Hf, !Hw.
Qed.

Lemma reliable_flushes w written : reliable w -> flushes w written = true.
Proof.
  intros [f [Hf [_ Hfl]]]. unfold flushes. now rewrite Hf, Hfl.
Qed.

Lemma subprocess_run_spawned argv capture text_mode w p :
  spawned (snd (subprocess_run argv capture text_mode w p)) =
  (spawned p ++ [ {| args := argv; capture_output := capture; text := text_mode |} ])%list.
Proof. unfold subprocess_run. now destruct (os_spawn w _ _). Qed.

Lemma subprocess_run_stdout argv capture text_mode w p :
  sys_stdout (snd (subprocess_run argv capture text_mode w p)) = sys_stdout p.
Proof. unfold subprocess_run. now destruct (os_spawn w _ _). Qed.

End BuiltinFacts.

(* ===================================================================== *)
(** ** What the script does *)
(* ===================================================================== *)

Import ExtractPdf.

Section ScriptFacts.

(** One equation for every run of the script, from any process state:
    after the request, a completed process has its line printed inside
    the [try], an error raised by the spawn goes to the handler, anything
    else raised by the spawn leaves the module body. *)
Lemma script_run (w : World) (p : Process) :
  script w p =
  match spawn_attempt w with
  | Completed result =>
      try_except (print (line_of result)) Exception on_error w (requested p)
  | Raises e =>
      if isinstance e Exception
      then on_error e w (requested p)
      else (Raise e, requested p)
  end.
Proof.
  unfold script, spawn_attempt, invocation, line_of, on_error, requested.
  py_unfold.
  destruct (os_spawn w _ _) as [result | e].
  - now destruct (returncode result =? 0).
  - now destruct (isinstance e Exception).
Qed.

(** The same for the command runner's first half. *)
Lemma runExtraction_run (w : World) (p : Process) :
  runExtraction w p =
  match spawn_attempt w with
  | Completed result =>
      (Normal (if returncode result =? 0 then Success (stdout result)
               else ToolFailure (stderr result)), requested p)
  | Raises e =>
      if isinstance e Exception
      then (Normal (LaunchFailure (str e)), requested p)
      else (Raise e, requested p)
  end.
Proof.
  unfold runExtraction, spawn_attempt, invocation, requested. py_unfold. simpl.
  destruct (os_spawn w _ _) as [result | e]; simpl.
  - now destruct (returncode result =? 0).
  - now destruct (isinstance e Exception).
Qed.

(** [runExtraction] computes the table [outcome_of]. *)
Lemma runExtraction_outcome (w : World) (p : Process) (o : Outcome) :
  outcome_of (spawn_attempt w) = Some o ->
  runExtraction w p = (Normal o, requested p).
Proof.
  rewrite runExtraction_run. unfold outcome_of.
  destruct (spawn_attempt w) as [result | e].
  - destruct (returncode result =? 0); now intros [= <-].
  - destruct (isinstance e Exception); [now intros [= <-] | discriminate].
Qed.

(** The line a completed process gets is the message of its outcome. *)
Lemma line_of_outcome (result : CompletedProcess) (o : Outcome) :
  outcome_of (Completed result) = Some o -> line_of result = message_of o.
Proof.
  unfold outcome_of, line_of.
  destruct (returncode result =? 0); now intros [= <-].
Qed.

(** When the spawn answer has an outcome and the stream accepts its
    message, the script completes and has printed that message as one
    line. *)
Lemma script_run_outcome (w : World) (p : Process) (o : Outcome) :
  outcome_of (spawn_attempt w) = Some o ->
  accepts w (sys_stdout p) (message_of o) = true ->
  script w p = (Normal tt, printed (message_of o) (requested p)).
Proof.
  intros Ho Ha. rewrite script_run.
  destruct (spawn_attempt w) as [result | e].
  - apply try_except_normal. rewrite (line_of_outcome result o Ho).
    now apply print_accepted.
  - unfold outcome_of in Ho. destruct (isinstance e Exception); [| discriminate].
    injection Ho as <-. unfold on_error. now apply print_accepted.
Qed.


(** A run reads the world through the spawn answer and [sys.stdout]
    only. *)
Lemma script_depends_on_spawn_and_stream (w1 w2 : World) (p : Process) :
  spawn_attempt w1 = spawn_attempt w2 ->
  stdout_stream w1 = stdout_stream w2 ->
  script w1 p = script w2 p.
Proof.
  intros Hs Hf. rewrite !script_run, Hs.
  destruct (spawn_attempt w2) as [result | e].
  - unfold try_except. simpl. unfold py_catch.
    rewrite (print_stream_only _ w1 w2 _ Hf).
    destruct (print (line_of result) w2 (requested p)) as [[[] | e] p']; [reflexivity |].
    destruct (isinstance e Exception); [| reflexivity].
    unfold on_error. now apply print_stream_only.
  - destruct (isinstance e Exception); [| reflexivity].
    unfold on_error. now apply print_stream_only.
Qed.

(** Two completed processes that get the same line printed give the same
    run on the same standard output. *)
Lemma script_same_line (w1 w2 : World) (r1 r2 : CompletedProcess) (p : Process) :
  spawn_attempt w1 = Completed r1 ->
  spawn_attempt w2 = Completed r2 ->
  stdout_stream w1 = stdout_stream w2 ->
  line_of r1 = line_of r2 ->
  script w1 p = script w2 p.
Proof.
  intros H1 H2 Hf Hl. rewrite !script_run, H1, H2, Hl.
  unfold try_except. simpl. unfold py_catch.
  rewrite (print_stream_only _ w1 w2 _ Hf).
  destruct (print (line_of r2) w2 (requested p)) as [[[] | e] p']; [reflexivity |].
  destruct (isinstance e Exception); [| reflexivity].
  unfold on_error. now apply print_stream_only.
Qed.

(** The script asks for its one child whatever happens afterwards. *)
Lemma script_spawned (w : World) (p : Process) :
  spawned (snd (script w p)) = (spawned p ++ [invocation])%list.
Proof.
  rewrite script_run.
  destruct (spawn_attempt w) as [result | e].
  - unfold try_except. simpl. unfold py_catch.
    pose proof (print_spawned (line_of result) w (requested p)) as H.
    destruct (print (line_of result) w (requested p)) as [[[] | e] p']; simpl in *.
    + exact H.
    + destruct (isinstance e Exception); simpl; [| exact H].
      unfold on_error. now rewrite print_spawned.
  - destruct (isinstance e Exception); simpl; [| reflexivity].
    unfold on_error. now rewrite print_spawned.
Qed.


End ScriptFacts.

(* ===================================================================== *)
(** ** Classification of a run *)
(* ===================================================================== *)

Import Scenarios.

Section Classification.




Example classify_converted :
  fst (run runExtraction world_converted) = Normal (Success "Hello").
Proof. reflexivity. Qed.

Example classify_bad_format :
  fst (run runExtraction world_bad_format) = Normal (ToolFailure "bad format").
Proof. reflexivity. Qed.

Example classify_no_textutil :
  fst (run runExtraction world_no_textutil) =
  Normal (LaunchFailure "[Errno 2] No such file or directory: 'textutil'").
Proof. reflexivity. Qed.

(** The bare name [textutil] is looked up through the environment the
    script is started with. *)
Example path_decides_launch :
  classification world_path_lookup = Some IsSuccess
  /\ classification (with_argv_environ world_path_lookup ["extract_pdf.py"] [])
     = Some IsLaunchFailure.
Proof. split; reflexivity. Qed.

(** The runtime is not blind to the command line: a program that reads
    [sys.argv] tells the two starts of the same machine apart. *)
Example argv_reader_depends_on_argv :
  fst (run sys_argv_get world_converted) <>
  fst (run sys_argv_get world_converted_args).
Proof. discriminate. Qed.

(** C7.  The script takes nothing from its world to build its request: in
    every world it asks for exactly one child, [textutil] with the
    arguments [-convert txt -stdout] and the fixed path, capturing both
    streams as text; the path is absolute. *)
Theorem fixed_invocation (w : World) :
  spawned (snd (run script w)) =
    [ {| args := ["textutil"; "-convert"; "txt"; "-stdout";
                  "/Users/sachinbuluswar/Desktop/API Reference - OpenAI API.pdf"];
         capture_output := true;
         text := true |} ]
  /\ spawned (snd (run runExtraction w)) = spawned (snd (run script w))
  /\ String.prefix "/" (last (args invocation) "") = true.
Proof.
  unfold run. rewrite script_spawned, runExtraction_run.
  repeat split.
  destruct (spawn_attempt w) as [result | e]; [reflexivity |].
  now destruct (isinstance e Exception).
Qed.



(** C9, as stated, fails: started under [PYTHONIOENCODING=ascii] on the
    same machine, with the same command line and the tool answering the
    same, the script prints something else, because the environment
    decides the encoding of its standard output. *)
Lemma environment_changes_output :
  world_cafe_ascii =
    with_argv_environ world_cafe (sys_argv world_cafe) [("PYTHONIOENCODING", "ascii")]
  /\ spawn_attempt world_cafe_ascii = spawn_attempt world_cafe
  /\ sys_stdout (snd (run script world_cafe)) = cafe_text ++ newline
  /\ sys_stdout (snd (run script world_cafe_ascii)) <>
       sys_stdout (snd (run script world_cafe)).
Proof. repeat split. intros H. vm_compute in H. discriminate H. Qed.

(** C9, amended.  The script reads neither its command line nor its
    environment variables: two runs for which the external tool answers
    the same and the standard output behaves the same are the same run,
    with the same printed output, whatever the command lines and the
    environments. *)
Theorem same_tool_same_stream_same_output (w1 w2 : World) :
  spawn_attempt w1 = spawn_attempt w2 ->
  stdout_stream w1 = stdout_stream w2 ->
  sys_stdout (snd (run script w1)) = sys_stdout (snd (run script w2))
  /\ run script w1 = run script w2.
Proof.
  intros Hs Hf.
  assert (E : run script w1 = run script w2)
    by (now apply script_depends_on_spawn_and_stream).
  now rewrite E.
Qed.

Lemma same_tool_same_stream_same_output_witness :
  sys_argv world_converted <> sys_argv world_converted_args
  /\ os_environ world_converted <> os_environ world_converted_args
  /\ spawn_attempt world_converted = spawn_attempt world_converted_args
  /\ stdout_stream world_converted = stdout_stream world_converted_args
  /\ run script world_converted = run script world_converted_args.
Proof.
  split; [discriminate |]. split; [discriminate |].
  split; [reflexivity |]. split; [reflexivity |].
  apply (same_tool_same_stream_same_output world_converted world_converted_args);
    reflexivity.
Defined.

End Classification.

(* ===================================================================== *)
(** ** What reaches the standard output *)
(* ===================================================================== *)

Section Output.

(** C10, as stated, fails: a [Success] whose text the standard output
    cannot encode does not end with the captured text and a newline on
    the standard output; the handler's line is there instead. *)
Lemma newline_not_on_every_outcome :
  outcome_of (spawn_attempt world_cafe_ascii) = Some (Success cafe_text)
  /\ sys_stdout (snd (run script world_cafe_ascii)) <> cafe_text ++ newline
  /\ sys_stdout (snd (run script world_cafe_ascii)) =
       "Failed to extract PDF: " ++ str encode_error ++ newline.
Proof. repeat split. intros H. vm_compute in H. discriminate H. Qed.

(** C10, amended.  On every outcome whose message the standard output
    accepts, [print] appends one newline to the message: the characters
    written are the message followed by a newline, one character more
    than the message; on [Success] they are the captured standard output
    followed by a newline, hence not the captured standard output
    itself. *)
Theorem print_appends_newline (w : World) (o : Outcome) :
  outcome_of (spawn_attempt w) = Some o ->
  accepts w "" (message_of o) = true ->
  sys_stdout (snd (run script w)) = message_of o ++ newline
  /\ String.length (sys_stdout (snd (run script w))) = S (String.length (message_of o))
  /\ match o with
     | Success captured =>
         sys_stdout (snd (run script w)) = captured ++ newline
         /\ sys_stdout (snd (run script w)) <> captured
     | ToolFailure message =>
         sys_stdout (snd (run script w)) = "Error: " ++ message ++ newline
     | LaunchFailure message =>
         sys_stdout (snd (run script w)) = "Failed to extract PDF: " ++ message ++ newline
     end.
Proof.
  intros Ho Ha. unfold run. rewrite (script_run_outcome w initial o Ho Ha). simpl.
  split; [reflexivity |]. split.
  - rewrite length_append, newline_length. lia.
  - destruct o as [captured | message | message]; simpl; try reflexivity.
    split; [reflexivity |]. apply append_one_neq. discriminate.
Qed.

Lemma print_appends_newline_witness :
  outcome_of (spawn_attempt world_converted) = Some (Success "Hello")
  /\ accepts world_converted "" (message_of (Success "Hello")) = true
  /\ sys_stdout (snd (run script world_converted)) = "Hello" ++ newline.
Proof.
  split; [reflexivity |]. split; [reflexivity |].
  apply (print_appends_newline world_converted (Success "Hello")); reflexivity.
Defined.

(** C2, as stated, fails: when the tool exits with status 1 and standard
    error [bad format], the standard output holds the line with its
    newline, not the bare string. *)
Lemma bad_format_not_bare_string :
  spawn_attempt world_bad_format = Completed rejected
  /\ returncode rejected <> 0
  /\ stderr rejected = "bad format"
  /\ sys_stdout (snd (run script world_bad_format)) <> "Error: bad format".
Proof. repeat split; discriminate. Qed.

(** C2, amended.  When the tool exits with a non-zero status and standard
    error [bad format], and the standard output accepts the line, the
    standard output holds exactly [Error: bad format] followed by one
    newline. *)
Theorem bad_format_prints_error_line (w : World) (result : CompletedProcess) :
  spawn_attempt w = Completed result ->
  returncode result <> 0 ->
  stderr result = "bad format" ->
  accepts w "" "Error: bad format" = true ->
  sys_stdout (snd (run script w)) = "Error: bad format" ++ newline.
Proof.
  intros Hs Hrc Herr Ha. unfold run.
  rewrite (script_run_outcome w initial (ToolFailure "bad format")).
  - reflexivity.
  - rewrite Hs. unfold outcome_of.
    destruct (Z.eqb_spec (returncode result) 0) as [E | _]; [contradiction |].
    now rewrite Herr.
  - exact Ha.
Qed.

Lemma bad_format_prints_error_line_witness :
  spawn_attempt world_bad_format = Completed rejected
  /\ returncode rejected <> 0
  /\ stderr rejected = "bad format"
  /\ accepts world_bad_format "" "Error: bad format" = true
  /\ sys_stdout (snd (run script world_bad_format)) = "Error: bad format" ++ newline.
Proof.
  split; [reflexivity |]. split; [simpl; lia |]. split; [reflexivity |].
  split; [reflexivity |].
  apply (bad_format_prints_error_line world_bad_format rejected);
    [reflexivity | simpl; lia | reflexivity | reflexivity].
Defined.




(** C4, as stated, fails: an error without a message, such as
    [MemoryError()], is caught and reported with nothing after the prefix:
    no non-empty description stands between the prefix and the end of the
    line. *)
Lemma launch_failure_description_may_be_empty :
  spawn_attempt world_out_of_memory = Raises out_of_memory
  /\ isinstance out_of_memory Exception = true
  /\ str out_of_memory = ""
  /\ sys_stdout (snd (run script world_out_of_memory)) =
       "Failed to extract PDF: " ++ newline
  /\ ~ (exists description : string,
          description <> ""
          /\ sys_stdout (snd (run script world_out_of_memory)) =
               "Failed to extract PDF: " ++ description ++ newline).
Proof.
  repeat split.
  intros [description [Hne H]]. apply Hne.
  change (sys_stdout (snd (run script world_out_of_memory)))
    with ("Failed to extract PDF: " ++ "" ++ newline) in H.
  apply append_cancel_l in H.
  destruct description as [|c d]; [reflexivity |].
  injection H as _ H. destruct d; discriminate.
Qed.

(** C4, amended.  When the spawn raises an error and the standard output
    accepts the line, the standard output holds [Failed to extract PDF: ]
    followed by [str(e)], whatever it is, and a newline; it starts with
    [Failed to extract PDF:], and the description shown is non-empty
    exactly when [str(e)] is. *)
Theorem launch_failure_prints_prefixed_line (w : World) (e : exception) :
  spawn_attempt w = Raises e ->
  isinstance e Exception = true ->
  accepts w "" ("Failed to extract PDF: " ++ str e) = true ->
  sys_stdout (snd (run script w)) = "Failed to extract PDF: " ++ str e ++ newline
  /\ String.prefix "Failed to extract PDF:" (sys_stdout (snd (run script w))) = true
  /\ fst (run runExtraction w) = Normal (LaunchFailure (str e)).
Proof.
  intros Hs He Ha.
  assert (Ho : outcome_of (spawn_attempt w) = Some (LaunchFailure (str e)))
    by (rewrite Hs; unfold outcome_of; now rewrite He).
  unfold run. rewrite (runExtraction_outcome w initial _ Ho).
  rewrite (script_run_outcome w initial _ Ho Ha). simpl.
  repeat split.
Qed.

Lemma launch_failure_prints_prefixed_line_witness :
  spawn_attempt world_no_textutil = Raises not_found
  /\ isinstance not_found Exception = true
  /\ accepts world_no_textutil "" ("Failed to extract PDF: " ++ str not_found) = true
  /\ sys_stdout (snd (run script world_no_textutil)) =
       "Failed to extract PDF: [Errno 2] No such file or directory: 'textutil'"
       ++ newline.
Proof.
  split; [reflexivity |]. split; [reflexivity |]. split; [reflexivity |].
  apply (launch_failure_prints_prefixed_line world_no_textutil not_found);
    reflexivity.
Defined.

End Output.

(* ===================================================================== *)
(** ** How the script ends *)
(* ===================================================================== *)

Section Termination.

(** A failure message starts with the words that tell the two failures
    apart. *)
Lemma failure_message_prefix (message : string) :
  String.prefix "Error: " (message_of (ToolFailure message)) = true
  /\ String.prefix "Failed to extract PDF: "
       (message_of (LaunchFailure message)) = true.
Proof. split; apply prefix_append. Qed.

(** The exit status reads the world through [sys.stdout] only. *)
Lemma interpreter_status_stream_only {A} (w1 w2 : World)
    (r : Completion A * Process) :
  stdout_stream w1 = stdout_stream w2 ->
  interpreter_status w1 r = interpreter_status w2 r.
Proof. intros H. unfold interpreter_status, flushes. now rewrite H. Qed.

(** An exception that leaves the module body never gives status 0. *)
Lemma escaped_status_not_zero {A} (w : World) (e : exception) (p : Process) :
  interpreter_status w (@Raise A e, p) <> Exited 0.
Proof.
  unfold interpreter_status. simpl.
  destruct (pyclass_eqb (exc_class e) KeyboardInterrupt); [discriminate |].
  destruct (flushes w (sys_stdout p)); discriminate.
Qed.

(** C5, as stated, fails: the handler's own print is inside no [try].  On
    a standard output that refuses every write the print of a [Success]
    raises, the handler's print raises again, and that error leaves the
    module body with nothing printed. *)
Lemma error_escapes_when_stdout_refuses :
  outcome_of (spawn_attempt world_full_unbuffered) = Some (Success "Hello")
  /\ fst (run script world_full_unbuffered) = Raise no_space
  /\ isinstance no_space Exception = true
  /\ sys_stdout (snd (run script world_full_unbuffered)) = "".
Proof. repeat split. Qed.

(** C5, amended.  Whichever of the three outcomes a run has, when the
    standard output accepts the outcome's message no exception leaves the
    module body: the script completes normally, having printed the
    message as a line. *)
Theorem no_uncaught_error (w : World) (o : Outcome) :
  outcome_of (spawn_attempt w) = Some o ->
  accepts w "" (message_of o) = true ->
  fst (run script w) = Normal tt
  /\ sys_stdout (snd (run script w)) = message_of o ++ newline
  /\ sys_stdout (snd (run script w)) <> "".
Proof.
  intros Ho Ha. unfold run. rewrite (script_run_outcome w initial o Ho Ha). simpl.
  repeat split. intros E. apply (f_equal String.length) in E.
  rewrite length_append, newline_length in E. simpl in E. lia.
Qed.

Lemma no_uncaught_error_witness :
  outcome_of (spawn_attempt world_no_textutil) = Some (LaunchFailure (str not_found))
  /\ accepts world_no_textutil "" (message_of (LaunchFailure (str not_found))) = true
  /\ fst (run script world_no_textutil) = Normal tt.
Proof.
  split; [reflexivity |]. split; [reflexivity |].
  apply (no_uncaught_error world_no_textutil (LaunchFailure (str not_found)));
    reflexivity.
Defined.

(** C6, as stated, fails: on a full device behind a buffer the text is
    taken, the module body completes, and the flush at exit fails: the
    status is 120, not 0. *)
Lemma exit_status_120_when_flush_fails :
  outcome_of (spawn_attempt world_full_buffered) = Some (Success "Hello")
  /\ fst (run script world_full_buffered) = Normal tt
  /\ interpreter_status world_full_buffered (run script world_full_buffered)
     = Exited 120.
Proof. repeat split. Qed.

(** C6, amended.  Whichever of the three outcomes a run has, when the
    standard output accepts the outcome's message and the flush at exit
    succeeds, the interpreter exits with status 0: the script itself
    never signals a failure through its exit status. *)
Theorem exit_status_zero (w : World) (o : Outcome) :
  outcome_of (spawn_attempt w) = Some o ->
  accepts w "" (message_of o) = true ->
  flushes w (message_of o ++ newline) = true ->
  interpreter_status w (run script w) = Exited 0.
Proof.
  intros Ho Ha Hf. unfold run. rewrite (script_run_outcome w initial o Ho Ha).
  unfold interpreter_status. simpl. now rewrite Hf.
Qed.

Lemma exit_status_zero_witness :
  outcome_of (spawn_attempt world_bad_format) = Some (ToolFailure "bad format")
  /\ accepts world_bad_format "" (message_of (ToolFailure "bad format")) = true
  /\ flushes world_bad_format (message_of (ToolFailure "bad format") ++ newline) = true
  /\ interpreter_status world_bad_format (run script world_bad_format) = Exited 0.
Proof.
  split; [reflexivity |]. split; [reflexivity |]. split; [reflexivity |].
  apply (exit_status_zero world_bad_format (ToolFailure "bad format")); reflexivity.
Defined.

(** Conversely, a spawn answer without an outcome is one that raised
    something that is not an [Exception]; the run ends with that
    exception escaping. *)
Lemma unclassified_run_escapes (w : World) :
  outcome_of (spawn_attempt w) = None ->
  exists e, spawn_attempt w = Raises e
            /\ isinstance e Exception = false
            /\ fst (run script w) = Raise e.
Proof.
  unfold run. rewrite script_run. unfold outcome_of.
  destruct (spawn_attempt w) as [result | e].
  - destruct (returncode result =? 0); discriminate.
  - destruct (isinstance e Exception) eqn:He; [discriminate |].
    intros _. now exists e.
Qed.

End Termination.

(* ===================================================================== *)
(** ** Beyond the three outcomes: escapes, and what the output hides *)
(* ===================================================================== *)

Section Escapes.

(** X1.  An exception outside the [Exception] subtree, raised while the
    child is awaited, is not handled: the request has been made, nothing
    has been printed, the exception leaves the module body and the
    interpreter does not exit with status 0. *)
Theorem non_exception_escapes (w : World) (e : exception) :
  spawn_attempt w = Raises e ->
  isinstance e Exception = false ->
  run script w = (Raise e, requested initial)
  /\ sys_stdout (snd (run script w)) = ""
  /\ interpreter_status w (run script w) <> Exited 0.
Proof.
  intros Hs He. unfold run. rewrite script_run, Hs, He.
  repeat split. apply escaped_status_not_zero.
Qed.

Lemma non_exception_escapes_witness :
  spawn_attempt world_interrupted = Raises interrupted
  /\ isinstance interrupted Exception = false
  /\ sys_stdout (snd (run script world_interrupted)) = "".
Proof.
  split; [reflexivity |]. split; [reflexivity |].
  apply (non_exception_escapes world_interrupted interrupted); reflexivity.
Defined.

(** X2.  On a standard output that takes every write and flushes, the
    interpreter exits with status 0 exactly when the spawn did not raise
    outside the [Exception] subtree; in particular a non-zero exit of the
    tool and a failed launch both end in status 0. *)
Theorem status_zero_iff_handled (w : World) :
  reliable w ->
  interpreter_status w (run script w) = Exited 0
  <-> ~ (exists e, spawn_attempt w = Raises e /\ isinstance e Exception = false).
Proof.
  intros R.
  destruct (outcome_of (spawn_attempt w)) as [o |] eqn:Ho.
  - unfold run.
    rewrite (script_run_outcome w initial o Ho (reliable_accepts w _ _ R)).
    unfold interpreter_status. simpl. rewrite (reliable_flushes w _ R).
    split; [| reflexivity]. intros _ [e [Hs He]].
    rewrite Hs in Ho. unfold outcome_of in Ho. rewrite He in Ho. discriminate.
  - destruct (unclassified_run_escapes w Ho) as [e [Hs [He Hr]]].
    split.
    + intros H. exfalso.
      destruct (run script w) as [c p] eqn:E. simpl in Hr. subst c.
      exact (escaped_status_not_zero w e p H).
    + intros N. exfalso. apply N. now exists e.
Qed.

Lemma status_zero_iff_handled_witness :
  reliable world_no_textutil
  /\ interpreter_status world_no_textutil (run script world_no_textutil) = Exited 0.
Proof.
  assert (R : reliable world_no_textutil).
  { exists utf8_terminal. repeat split. }
  split; [exact R |].
  apply (status_zero_iff_handled world_no_textutil R).
  intros [e [Hs He]]. injection Hs as <-. discriminate He.
Defined.

(** X3.  On a standard output that takes every write, the script writes
    exactly when it ends normally: an empty standard output means the
    exception escaped. *)
Theorem silent_iff_escaped (w : World) :
  reliable w ->
  sys_stdout (snd (run script w)) = ""
  <-> exists e, fst (run script w) = Raise e.
Proof.
  intros R.
  destruct (outcome_of (spawn_attempt w)) as [o |] eqn:Ho.
  - unfold run.
    rewrite (script_run_outcome w initial o Ho (reliable_accepts w _ _ R)). simpl.
    split; [| intros [e H]; discriminate].
    intros E. apply (f_equal String.length) in E.
    rewrite length_append, newline_length in E. simpl in E. lia.
  - destruct (unclassified_run_escapes w Ho) as [e [Hs [He Hr]]].
    split; [intros _; now exists e |]. intros _.
    unfold run. now rewrite script_run, Hs, He.
Qed.

Lemma silent_iff_escaped_witness :
  reliable world_interrupted
  /\ sys_stdout (snd (run script world_interrupted)) = "".
Proof.
  assert (R : reliable world_interrupted).
  { exists utf8_terminal. repeat split. }
  split; [exact R |].
  apply (silent_iff_escaped world_interrupted R).
  exists interrupted. reflexivity.
Defined.



(** X11.  The handler's own print is unguarded: when the spawn raises an
    error and the standard output refuses the handler's line, the error
    raised by that print leaves the module body and the interpreter does
    not exit with status 0. *)
Theorem refused_handler_print_escapes (w : World) (e : exception)
    (f : TextStream) (taken : string) (e' : exception) :
  spawn_attempt w = Raises e ->
  isinstance e Exception = true ->
  stdout_stream w = Some f ->
  write f "" ("Failed to extract PDF: " ++ str e) = Refused taken e' ->
  run script w = (Raise e', {| sys_stdout := taken; spawned := [invocation] |})
  /\ interpreter_status w (run script w) <> Exited 0.
Proof.
  intros Hs He Hf Hw. unfold run. rewrite script_run, Hs, He. unfold on_error.
  rewrite (print_refused _ w (requested initial) f taken e' Hf Hw).
  split; [reflexivity | apply escaped_status_not_zero].
Qed.

Lemma refused_handler_print_escapes_witness :
  spawn_attempt world_no_textutil_full = Raises not_found
  /\ isinstance not_found Exception = true
  /\ stdout_stream world_no_textutil_full = Some full_device_unbuffered
  /\ fst (run script world_no_textutil_full) = Raise no_space.
Proof.
  split; [reflexivity |]. split; [reflexivity |]. split; [reflexivity |].
  rewrite (proj1 (refused_handler_print_escapes
                    world_no_textutil_full not_found full_device_unbuffered
                    "" no_space eq_refl eq_refl eq_refl eq_refl)).
  reflexivity.
Defined.

(** X12.  Started with its standard output closed, the script is silent
    and ends normally on each of the three outcomes: every print is a
    no-op, and the interpreter exits with status 0. *)
Theorem closed_stdout_silent (w : World) (o : Outcome) :
  stdout_stream w = None ->
  outcome_of (spawn_attempt w) = Some o ->
  run script w = (Normal tt, requested initial)
  /\ interpreter_status w (run script w) = Exited 0.
Proof.
  intros Hf Ho.
  assert (E : run script w = (Normal tt, requested initial)).
  { unfold run. rewrite script_run. unfold outcome_of in Ho.
    destruct (spawn_attempt w) as [result | e].
    - apply try_except_normal. now apply print_closed.
    - destruct (isinstance e Exception); [| discriminate].
      unfold on_error. now apply print_closed. }
  split; [exact E |]. rewrite E.
  unfold interpreter_status, flushes. simpl. now rewrite Hf.
Qed.

Lemma closed_stdout_silent_witness :
  stdout_stream world_stdout_closed = None
  /\ outcome_of (spawn_attempt world_stdout_closed) = Some (Success "Hello")
  /\ sys_stdout (snd (run script world_stdout_closed)) = "".
Proof.
  split; [reflexivity |]. split; [reflexivity |].
  rewrite (proj1 (closed_stdout_silent world_stdout_closed (Success "Hello")
                    eq_refl eq_refl)).
  reflexivity.
Defined.

End Escapes.

Section Hidden.

(** X4.  The printed text does not tell a failure from a success: on the
    same standard output, a tool that succeeds with the text [Error: m]
    and a tool that fails with standard error [m] give the same run (same
    output, same completion, same request, same exit status), though the
    two runs are classified differently. *)
Theorem failure_indistinguishable_from_success
    (w1 w2 : World) (r1 r2 : CompletedProcess) :
  spawn_attempt w1 = Completed r1 -> returncode r1 = 0 ->
  spawn_attempt w2 = Completed r2 -> returncode r2 <> 0 ->
  stdout r1 = "Error: " ++ stderr r2 ->
  stdout_stream w1 = stdout_stream w2 ->
  run script w1 = run script w2
  /\ interpreter_status w1 (run script w1) = interpreter_status w2 (run script w2)
  /\ classification w1 = Some IsSuccess
  /\ classification w2 = Some IsToolFailure.
Proof.
  intros H1 Z1 H2 Z2 E Hf.
  assert (L : line_of r1 = line_of r2).
  { unfold line_of. rewrite Z1.
    destruct (Z.eqb_spec (returncode r2) 0) as [? | _]; [contradiction |].
    exact E. }
  assert (R : run script w1 = run script w2)
    by (apply (script_same_line w1 w2 r1 r2 initial H1 H2 Hf L)).
  split; [exact R |]. split.
  - rewrite R. now apply interpreter_status_stream_only.
  - unfold classification, run. rewrite !runExtraction_run, H1, H2, Z1.
    destruct (Z.eqb_spec (returncode r2) 0) as [? | _]; [contradiction |].
    split; reflexivity.
Qed.

Lemma failure_indistinguishable_from_success_witness :
  spawn_attempt world_lookalike = Completed lookalike
  /\ spawn_attempt world_bad_format = Completed rejected
  /\ stdout_stream world_lookalike = stdout_stream world_bad_format
  /\ run script world_lookalike = run script world_bad_format.
Proof.
  split; [reflexivity |]. split; [reflexivity |]. split; [reflexivity |].
  apply (failure_indistinguishable_from_success
           world_lookalike world_bad_format lookalike rejected);
    [reflexivity | reflexivity | reflexivity | simpl; lia | reflexivity
    | reflexivity].
Defined.

(** X5.  When the tool fails, what it wrote to its standard output and
    which non-zero status it returned are dropped: on the same standard
    output, two failing runs with the same standard error are the same
    run. *)
Theorem failure_drops_stdout_and_code (w1 w2 : World) (r1 r2 : CompletedProcess) :
  spawn_attempt w1 = Completed r1 -> returncode r1 <> 0 ->
  spawn_attempt w2 = Completed r2 -> returncode r2 <> 0 ->
  stderr r1 = stderr r2 ->
  stdout_stream w1 = stdout_stream w2 ->
  run script w1 = run script w2.
Proof.
  intros H1 Z1 H2 Z2 E Hf.
  apply (script_same_line w1 w2 r1 r2 initial H1 H2 Hf).
  unfold line_of.
  destruct (Z.eqb_spec (returncode r1) 0) as [? | _]; [contradiction |].
  destruct (Z.eqb_spec (returncode r2) 0) as [? | _]; [contradiction |].
  now rewrite E.
Qed.

Lemma failure_drops_stdout_and_code_witness :
  stdout rejected <> stdout rejected_midway
  /\ returncode rejected <> returncode rejected_midway
  /\ run script world_bad_format = run script world_rejected_midway.
Proof.
  split; [discriminate |]. split; [discriminate |].
  apply (failure_drops_stdout_and_code
           world_bad_format world_rejected_midway rejected rejected_midway);
    [reflexivity | simpl; lia | reflexivity | simpl; lia | reflexivity
    | reflexivity].
Defined.

(** X6.  When the tool succeeds, what it wrote to its standard error is
    dropped: on the same standard output, two successful runs with the
    same standard output of the tool are the same run. *)
Theorem success_drops_stderr (w1 w2 : World) (r1 r2 : CompletedProcess) :
  spawn_attempt w1 = Completed r1 -> returncode r1 = 0 ->
  spawn_attempt w2 = Completed r2 -> returncode r2 = 0 ->
  stdout r1 = stdout r2 ->
  stdout_stream w1 = stdout_stream w2 ->
  run script w1 = run script w2.
Proof.
  intros H1 Z1 H2 Z2 E Hf.
  apply (script_same_line w1 w2 r1 r2 initial H1 H2 Hf).
  unfold line_of. now rewrite Z1, Z2.
Qed.

Lemma success_drops_stderr_witness :
  stderr converted <> stderr converted_with_warning
  /\ run script world_converted = run script world_converted_with_warning.
Proof.
  split; [discriminate |].
  apply (success_drops_stderr
           world_converted world_converted_with_warning
           converted converted_with_warning); reflexivity.
Defined.

(** X7.  The failure line shows the error's text, not its class: on the
    same standard output, two errors of different classes with the same
    text give the same run. *)
Theorem launch_failure_hides_class (w1 w2 : World) (e1 e2 : exception) :
  spawn_attempt w1 = Raises e1 -> isinstance e1 Exception = true ->
  spawn_attempt w2 = Raises e2 -> isinstance e2 Exception = true ->
  str e1 = str e2 ->
  stdout_stream w1 = stdout_stream w2 ->
  run script w1 = run script w2.
Proof.
  intros H1 I1 H2 I2 E Hf. unfold run.
  rewrite !script_run, H1, H2, I1, I2. unfold on_error. rewrite E.
  now apply print_stream_only.
Qed.

Lemma launch_failure_hides_class_witness :
  exc_class not_found <> exc_class plain_oserror
  /\ run script world_no_textutil = run script world_plain_oserror.
Proof.
  split; [discriminate |].
  apply (launch_failure_hides_class
           world_no_textutil world_plain_oserror not_found plain_oserror);
    reflexivity.
Defined.

End Hidden.
